(** * Usage ledger of the tarot app (src/app.py, section 3 and 4)

    Shallow embedding of the SQLite-backed ledger: the tables
    [usage_daily], [user_credits] and [stripe_sessions] become finite maps,
    each ledger function becomes a function from a database value to its
    result and the new database.  The ambient clock ([today_key()] and
    [datetime.datetime.utcnow()]) is an explicit [Clock] argument, and the
    result of [stripe.checkout.Session.retrieve] is an explicit argument of
    [verify_and_grant_from_session] ([None] when it raises). *)

From stdpp Require Import base gmap strings list.
From Stdlib Require Import ZArith Lia Ascii.

Local Open Scope Z_scope.

(** ** Environment *)

Record Clock := mkClock {
  clock_today : string;   (** [datetime.date.today().isoformat()] *)
  clock_now : string      (** [datetime.datetime.utcnow().isoformat()] *)
}.

Definition today_key (c : Clock) : string := clock_today c.

(** ** Schema (db_init) *)

(** Row of [user_credits(uid PRIMARY KEY, deep_credits, updated_at)]. *)
Record CreditRow := mkCreditRow {
  deep_credits : Z;
  updated_at : string
}.

(** Row of [stripe_sessions(session_id PRIMARY KEY, uid, processed_at)]. *)
Record SessionRow := mkSessionRow {
  s_uid : string;
  processed_at : string
}.

Record DB := mkDB {
  usage_daily : gmap (string * string) Z;     (** (uid, day) -> used *)
  user_credits : gmap string CreditRow;        (** uid -> row *)
  stripe_sessions : gmap string SessionRow     (** session_id -> row *)
}.

(** The database right after [db_init()] on a fresh file. *)
Definition db_empty : DB := mkDB ∅ ∅ ∅.

Definition FREE_PER_DAY : Z := 1.

(** ** Free quota *)

(** [SELECT used FROM usage_daily WHERE uid=? AND day=?]; 0 without a row. *)
Definition get_free_used (c : Clock) (db : DB) (uid : string) : Z :=
  match usage_daily db !! (uid, today_key c) with
  | Some used => used
  | None => 0
  end.

(** [INSERT INTO usage_daily(uid, day, used) VALUES(?,?,?)
     ON CONFLICT(uid, day) DO UPDATE SET used = used + ?]. *)
Definition inc_free_used (c : Clock) (db : DB) (uid : string) (n : Z) : DB :=
  let k := (uid, today_key c) in
  let used' := match usage_daily db !! k with
               | None => n
               | Some used => used + n
               end in
  mkDB (<[k := used']> (usage_daily db)) (user_credits db) (stripe_sessions db).

Definition can_use_free (c : Clock) (db : DB) (uid : string) : bool :=
  get_free_used c db uid <? FREE_PER_DAY.

(** ** Deep credits *)

(** [SELECT deep_credits FROM user_credits WHERE uid=?]; 0 without a row. *)
Definition get_deep_credits (db : DB) (uid : string) : Z :=
  match user_credits db !! uid with
  | Some r => deep_credits r
  | None => 0
  end.

(** [INSERT INTO user_credits(uid, deep_credits, updated_at) VALUES(?,?,?)
     ON CONFLICT(uid) DO UPDATE SET deep_credits = deep_credits + ?, updated_at=?]. *)
Definition add_deep_credits (c : Clock) (db : DB) (uid : string) (n : Z) : DB :=
  let now := clock_now c in
  let row' := match user_credits db !! uid with
              | None => mkCreditRow n now
              | Some r => mkCreditRow (deep_credits r + n) now
              end in
  mkDB (usage_daily db) (<[uid := row']> (user_credits db)) (stripe_sessions db).

(** [UPDATE user_credits SET deep_credits = deep_credits - ?, updated_at=?
     WHERE uid=?]: touches the row of [uid] if there is one, nothing otherwise. *)
Definition update_deep_credits (c : Clock) (db : DB) (uid : string) (n : Z) : DB :=
  mkDB (usage_daily db)
       (alter (fun r => mkCreditRow (deep_credits r - n) (clock_now c)) uid
              (user_credits db))
       (stripe_sessions db).

(** [consume_deep_credit]: read the balance, return False if it is below
    [n], otherwise run the UPDATE and return True. *)
Definition consume_deep_credit (c : Clock) (db : DB) (uid : string) (n : Z)
    : bool * DB :=
  let cur_credits := get_deep_credits db uid in
  if cur_credits <? n then (false, db)
  else (true, update_deep_credits c db uid n).

(** ** Stripe sessions *)

(** [SELECT 1 FROM stripe_sessions WHERE session_id=?]. *)
Definition stripe_session_already_processed (db : DB) (session_id : string) : bool :=
  match stripe_sessions db !! session_id with
  | Some _ => true
  | None => false
  end.

(** [INSERT OR IGNORE INTO stripe_sessions(session_id, uid, processed_at)]. *)
Definition mark_stripe_session_processed (c : Clock) (db : DB)
    (session_id uid : string) : DB :=
  match stripe_sessions db !! session_id with
  | Some _ => db
  | None =>
      mkDB (usage_daily db) (user_credits db)
           (<[session_id := mkSessionRow uid (clock_now c)]> (stripe_sessions db))
  end.

(** The attributes of a retrieved Checkout Session that the code reads with
    [getattr]; [metadata_uid] is [(sess.metadata or {}).get("uid")]. *)
Record StripeSession := mkStripeSession {
  payment_status : option string;
  status : option string;
  client_reference_id : option string;
  metadata_uid : option string
}.

(** Python truthiness of an optional string, and [a or b]. *)
Definition truthy (s : option string) : bool :=
  match s with
  | Some v => negb (String.eqb v "")
  | None => false
  end.

Definition py_or (a b : option string) : option string :=
  if truthy a then a else b.

(** [client_reference_id or metadata.get("uid")]. *)
Definition session_owner (sess : StripeSession) : option string :=
  py_or (client_reference_id sess) (metadata_uid sess).

(** The message returned next to the boolean. *)
Inductive Msg :=
| MsgMissingSessionId
| MsgAlreadyProcessed
| MsgQueryFailed
| MsgNotPaid (st ps : option string)
| MsgUidMismatch
| MsgGranted.

Definition opt_str_eqb (a b : option string) : bool :=
  match a, b with
  | Some x, Some y => String.eqb x y
  | None, None => true
  | _, _ => false
  end.

Definition verify_and_grant_from_session (c : Clock) (db : DB)
    (uid session_id : string) (retrieved : option StripeSession)
    : (bool * Msg) * DB :=
  if String.eqb session_id "" then ((false, MsgMissingSessionId), db)
  else if stripe_session_already_processed db session_id
  then ((true, MsgAlreadyProcessed), db)
  else match retrieved with
  | None => ((false, MsgQueryFailed), db)
  | Some sess =>
      if negb (opt_str_eqb (payment_status sess) (Some "paid"))
      then ((false, MsgNotPaid (status sess) (payment_status sess)), db)
      else
        let sess_uid := session_owner sess in
        if truthy sess_uid && negb (opt_str_eqb sess_uid (Some uid))
        then ((false, MsgUidMismatch), db)
        else
          let db1 := add_deep_credits c db uid 1 in
          ((true, MsgGranted), mark_stripe_session_processed c db1 session_id uid)
  end.

(** ** Ledger operations as a trace *)

(** The calls the page makes into the ledger (lines 588-806, 909-942). *)
Inductive Op :=
| OpIncFree (uid : string) (n : Z)
| OpGrant (uid : string) (n : Z)
| OpConsume (uid : string) (n : Z)
| OpVerify (uid session_id : string) (retrieved : option StripeSession)
| OpMark (session_id uid : string).

Definition op_identity (op : Op) : string :=
  match op with
  | OpIncFree u _ | OpGrant u _ | OpConsume u _ | OpVerify u _ _ => u
  | OpMark _ u => u
  end.

Definition exec_op (c : Clock) (db : DB) (op : Op) : DB :=
  match op with
  | OpIncFree u n => inc_free_used c db u n
  | OpGrant u n => add_deep_credits c db u n
  | OpConsume u n => snd (consume_deep_credit c db u n)
  | OpVerify u sid r => snd (verify_and_grant_from_session c db u sid r)
  | OpMark sid u => mark_stripe_session_processed c db sid u
  end.

(** Sequential execution, one clock reading per call. *)
Fixpoint run (tr : list (Clock * Op)) (db : DB) : DB :=
  match tr with
  | [] => db
  | (c, op) :: tr' => run tr' (exec_op c db op)
  end.

(** Number of calls in [tr] that granted credits for [session_id]
    (a [verify_and_grant_from_session] answering [MsgGranted]). *)
Fixpoint grants_for (session_id : string) (tr : list (Clock * Op)) (db : DB) : nat :=
  match tr with
  | [] => 0%nat
  | (c, op) :: tr' =>
      let here := match op with
                  | OpVerify u sid r =>
                      if String.eqb sid session_id then
                        match fst (verify_and_grant_from_session c db u sid r) with
                        | (_, MsgGranted) => 1%nat
                        | _ => 0%nat
                        end
                      else 0%nat
                  | _ => 0%nat
                  end in
      (here + grants_for session_id tr' (exec_op c db op))%nat
  end.

(** Every [OpGrant] of the trace uses a positive amount. *)
Definition grants_positive (p : Clock * Op) : Prop :=
  match snd p with
  | OpGrant _ n => 0 < n
  | _ => True
  end.

(** [n] sequential calls [consume_deep_credit(uid, 1)]. *)
Fixpoint consume_seq (c : Clock) (db : DB) (uid : string) (m : nat)
    : list bool * DB :=
  match m with
  | O => ([], db)
  | S m' =>
      let (b, db1) := consume_deep_credit c db uid 1 in
      let (bs, db2) := consume_seq c db1 uid m' in
      (b :: bs, db2)
  end.

(** [m] sequential calls [inc_free_used(uid, k_i)] on the same day. *)
Fixpoint inc_many (c : Clock) (db : DB) (uid : string) (ks : list Z) : DB :=
  match ks with
  | [] => db
  | k :: ks' => inc_many c (inc_free_used c db uid k) uid ks'
  end.

(** ** Concurrent calls of [consume_deep_credit]

    Each call opens its own connection and runs two separate statements:
    the SELECT (autocommit; no lock survives it) and, later, the UPDATE
    (or the early return).  A thread is a call between those steps. *)
Inductive Thread :=
| TStart (uid : string) (n : Z)
| TRead (uid : string) (n cur_credits : Z)
| TDone (r : bool).

Definition thread_step (c : Clock) (db : DB) (t : Thread) : option (Thread * DB) :=
  match t with
  | TStart uid n => Some (TRead uid n (get_deep_credits db uid), db)
  | TRead uid n cur =>
      if cur <? n then Some (TDone false, db)
      else Some (TDone true, update_deep_credits c db uid n)
  | TDone _ => None
  end.

(** Run the thread chosen by each entry of the schedule; a finished or
    absent thread makes the entry a no-op. *)
Fixpoint run_sched (c : Clock) (sched : list nat) (db : DB) (ts : list Thread)
    : DB * list Thread :=
  match sched with
  | [] => (db, ts)
  | i :: sched' =>
      match ts !! i with
      | Some t =>
          match thread_step c db t with
          | Some (t', db') => run_sched c sched' db' (<[i := t']> ts)
          | None => run_sched c sched' db ts
          end
      | None => run_sched c sched' db ts
      end
  end.

Definition thread_result (t : Thread) : option bool :=
  match t with TDone r => Some r | _ => None end.

(** How many threads finished with True. *)
Fixpoint successes (ts : list Thread) : nat :=
  match ts with
  | [] => 0%nat
  | TDone true :: ts' => S (successes ts')
  | _ :: ts' => successes ts'
  end.

(** The values of [db'] stored under identity [B] are those of [db]:
    daily counts, credit row, and the processed-session rows owned by [B]. *)
Definition frame_of (B : string) (db db' : DB) : Prop :=
  (forall d : string, usage_daily db' !! (B, d) = usage_daily db !! (B, d)) /\
  user_credits db' !! B = user_credits db !! B /\
  (forall (session_id : string) (r : SessionRow), s_uid r = B ->
     stripe_sessions db' !! session_id = Some r <->
     stripe_sessions db !! session_id = Some r).

(** Every stored balance is non-negative. *)
Definition balances_nonneg (db : DB) : Prop :=
  forall (u : string) (r : CreditRow), user_credits db !! u = Some r -> 0 <= deep_credits r.

(** ** Status bar (line 625) *)

(** [free_left = max(0, FREE_PER_DAY - get_free_used(uid))]. *)
Definition free_left (c : Clock) (db : DB) (uid : string) : Z :=
  Z.max 0 (FREE_PER_DAY - get_free_used c db uid).

(** ** Generating a reading (lines 787-830) *)

(** What the model call and the JSON handling after it did. *)
Inductive AiResult :=
| AiRaised          (** [ai_free] / [ai_deep] raised *)
| AiData            (** [parse_json_safely(txt) or repair_json_with_model(txt)] is truthy *)
| AiNoData          (** both returned a falsy value *)
| AiRepairRaised.   (** [repair_json_with_model] raised *)

Inductive GenOutcome :=
| GenPaywall            (** no deep credit and no free use left: paywall *)
| GenStopped            (** [consume_deep_credit] failed: [st.stop()] *)
| GenDone (deep : bool). (** a reading was requested from the model *)

(** The ledger side of the generation block: prefer a deep credit
    ([want_deep = deep_left > 0]); otherwise use the free quota, whose
    counter is only increased once [ai_free] has returned. *)
Definition generate_reading (c : Clock) (db : DB) (uid : string) (ai : AiResult)
    : GenOutcome * DB :=
  let deep_left := get_deep_credits db uid in
  let want_deep := 0 <? deep_left in
  if negb want_deep && negb (can_use_free c db uid) then (GenPaywall, db)
  else if want_deep then
    let (ok, db1) := consume_deep_credit c db uid 1 in
    if negb ok then (GenStopped, db1) else (GenDone true, db1)
  else match ai with
       | AiRaised => (GenDone false, db)
       | _ => (GenDone false, inc_free_used c db uid 1)
       end.

(** ** Page flow (session_state, lines 556-930) *)

Inductive Stage := SAsk | SFollowup | SDraw | SReading.

(** A card as built by [make_card]; its random choices are inputs. *)
Record Card := mkCard {
  card_name : string;
  card_position : string;
  card_meaning : string
}.

(** [st.session_state["reading"]]: a parsed reading or the [{"raw": ...}]
    fallback. *)
Inductive Reading := RdData | RdRaw.

(** The part of [st.session_state] the flow reads and writes (the follow-up
    answers and the history are left out). A drawn card is the card with its
    [pos_label]. *)
Record Flow := mkFlow {
  stage : Stage;
  drawn_cards : list (Card * string);
  reveal_index : Z;
  reading : option Reading;
  reading_is_deep : bool
}.

(** [init_state()] on a new session. *)
Definition init_flow : Flow := mkFlow SAsk [] (-1) None false.

(** [stage in ["followup", "draw", "reading"]] and [stage in ["draw", "reading"]]. *)
Definition in_followup_stage (s : Stage) : bool :=
  match s with SAsk => false | _ => true end.

Definition in_draw_stage (s : Stage) : bool :=
  match s with SDraw | SReading => true | _ => false end.

(** [stage in ["draw", "reading"] and st.session_state["drawn_cards"]]. *)
Definition draw_block_shown (fl : Flow) : bool :=
  in_draw_stage (stage fl) &&
  match drawn_cards fl with [] => false | _ => true end.

(** [reveal >= 2 and st.session_state["reading"] is None]. *)
Definition generation_pending (fl : Flow) : bool :=
  draw_block_shown fl && (2 <=? reveal_index fl) &&
  match reading fl with None => true | Some _ => false end.

(** [pos_order = ["过去", "现在", "未来"]]; [card["pos_label"] = pos_order[i]]. *)
Definition label_deck (deck : Card * Card * Card) : list (Card * string) :=
  let '(c1, c2, c3) := deck in [(c1, "过去"); (c2, "现在"); (c3, "未来")].

(** The buttons of the page, plus the generation block that runs on its own
    once all three cards are shown. *)
Inductive Action :=
| ANext (question_blank : bool)     (** "下一步"; [not question.strip()] *)
| ARestart                          (** "重新开始" *)
| ADraw (deck : Card * Card * Card) (** "一键抽牌" or "跳过追问并抽牌" *)
| ARevealNext                       (** "翻开下一张" *)
| AUndo                             (** "撤销上一张" *)
| ARedraw                           (** "重新抽一组" *)
| AGenerate (ai : AiResult)         (** the generation block *)
| AUpgrade (ai : AiResult).         (** "升级为深度解读" *)

(** The flow fields reset by most buttons. *)
Definition reset_reading (s : Stage) (drawn : list (Card * string))
    (reveal : Z) : Flow :=
  mkFlow s drawn reveal None false.

Definition set_reading (fl : Flow) (r : option Reading) : Flow :=
  mkFlow (stage fl) (drawn_cards fl) (reveal_index fl) r (reading_is_deep fl).

(** One run of the script for the session of [uid]. *)
Definition app_step (c : Clock) (uid : string) (s : Flow * DB) (a : Action) : Flow * DB :=
  let (fl, db) := s in
  match a with
  | ANext blank =>
      if blank then (fl, db) else (reset_reading SFollowup [] (-1), db)
  | ARestart => (reset_reading SAsk [] (-1), db)
  | ADraw deck =>
      if in_followup_stage (stage fl)
      then (reset_reading SDraw (label_deck deck) (-1), db)
      else (fl, db)
  | ARevealNext =>
      if draw_block_shown fl then
        if reveal_index fl <? 2
        then (reset_reading SDraw (drawn_cards fl) (reveal_index fl + 1), db)
        else (fl, db)
      else (fl, db)
  | AUndo =>
      if draw_block_shown fl then
        if 0 <=? reveal_index fl
        then (reset_reading SDraw (drawn_cards fl) (reveal_index fl - 1), db)
        else (fl, db)
      else (fl, db)
  | ARedraw =>
      if draw_block_shown fl
      then (reset_reading SFollowup [] (-1), db)
      else (fl, db)
  | AGenerate ai =>
      if generation_pending fl then
        let (o, db1) := generate_reading c db uid ai in
        match o with
        | GenPaywall | GenStopped => (fl, db1)
        | GenDone deep =>
            match ai with
            | AiRaised =>
                (** [reading_is_deep] is unbound: the NameError comes right
                    after [st.session_state["reading"]] is set *)
                (set_reading fl (Some RdRaw), db1)
            | AiData =>
                (mkFlow SReading (drawn_cards fl) (reveal_index fl) (Some RdData) deep, db1)
            | AiNoData | AiRepairRaised =>
                (mkFlow SReading (drawn_cards fl) (reveal_index fl) (Some RdRaw) deep, db1)
            end
        end
      else (fl, db)
  | AUpgrade ai =>
      let shown := match reading fl with Some _ => true | None => false end in
      if shown && negb (reading_is_deep fl) && (0 <? get_deep_credits db uid) then
        let (ok, db1) := consume_deep_credit c db uid 1 in
        if negb ok then (fl, db1)
        else
          let r := match ai with
                   | AiData => Some RdData
                   | AiNoData => None
                   | AiRaised | AiRepairRaised => Some RdRaw
                   end in
          (mkFlow (stage fl) (drawn_cards fl) (reveal_index fl) r true, db1)
      else (fl, db)
  end.

Fixpoint app_run (c : Clock) (uid : string) (s : Flow * DB) (acts : list Action)
    : Flow * DB :=
  match acts with
  | [] => s
  | a :: acts' => app_run c uid (app_step c uid s a) acts'
  end.

(** ** Checkout sessions (create_checkout_session, lines 244-259) *)

(** The Checkout Session created for [uid], as [verify_and_grant_from_session]
    later reads it back: [client_reference_id=uid] and
    [metadata={"uid": uid, "credits": "1"}]; [payment_status] and [status]
    are set by Stripe. *)
Definition created_checkout_session (uid : string) (pay_status st : option string)
    : StripeSession :=
  mkStripeSession pay_status st (Some uid) (Some uid).

(** ** JSON recovery (parse_json_safely, lines 293-313)

    The text is a [string]; [json_loads] is [json.loads], [None] when it
    raises.  ['{'] and ['}'] are ASCII, so their byte positions in the UTF-8
    text and code-point positions in the Python string pick the same
    substrings. *)

(** [text.find(x)]: first index of [x], -1 if absent. *)
Fixpoint str_find (x : Ascii.ascii) (t : string) : Z :=
  match t with
  | EmptyString => -1
  | String ch t' =>
      if Ascii.eqb ch x then 0
      else let r := str_find x t' in if r =? -1 then -1 else r + 1
  end.

(** [text.rfind(x)]: last index of [x], -1 if absent. *)
Fixpoint str_rfind (x : Ascii.ascii) (t : string) : Z :=
  match t with
  | EmptyString => -1
  | String ch t' =>
      let r := str_rfind x t' in
      if r =? -1 then (if Ascii.eqb ch x then 0 else -1) else r + 1
  end.

(** [text[s:e+1]] for [0 <= s <= e]. *)
Definition py_slice (t : string) (s e : Z) : string :=
  String.substring (Z.to_nat s) (Z.to_nat (e + 1 - s)) t.

(** Greedy [.*\}] (DOTALL): the longest prefix of [t] ending in ['}']. *)
Fixpoint longest_close (t : string) : option string :=
  match t with
  | EmptyString => None
  | String ch t' =>
      match longest_close t' with
      | Some p => Some (String ch p)
      | None => if Ascii.eqb ch "}"%char then Some (String ch EmptyString) else None
      end
  end.

(** [re.search(r"\{.*\}", text, flags=re.S)]: try each start position from
    the left; at a ['{'] take the greedy match if there is one. *)
Fixpoint re_search_braces (t : string) : option string :=
  match t with
  | EmptyString => None
  | String ch t' =>
      if Ascii.eqb ch "{"%char then
        match longest_close t' with
        | Some p => Some (String ch p)
        | None => re_search_braces t'
        end
      else re_search_braces t'
  end.

Definition parse_json_safely {J : Type} (json_loads : string -> option J)
    (text : string) : option J :=
  if String.eqb text "" then None else
  match json_loads text with
  | Some v => Some v
  | None =>
      let s := str_find "{"%char text in
      let e := str_rfind "}"%char text in
      let second :=
        if negb (s =? -1) && negb (e =? -1) && (s <? e)
        then json_loads (py_slice text s e) else None in
      match second with
      | Some v => Some v
      | None =>
          match re_search_braces text with
          | Some m => json_loads m
          | None => None
          end
      end
  end.

(** A card as [make_card] builds it, for concrete runs. *)
Definition sample_card : Card := mkCard "愚者" "正位" "新的开始".


(** What every reachable flow satisfies. *)
Definition flow_inv (fl : Flow) : Prop :=
  -1 <= reveal_index fl <= 2 /\
  (drawn_cards fl = [] \/ length (drawn_cards fl) = 3%nat) /\
  (reading fl <> None ->
     reveal_index fl = 2 /\ length (drawn_cards fl) = 3%nat /\
     in_draw_stage (stage fl) = true).

(** * Properties *)

(** ** Free quota *)

Lemma get_free_used_inc (c : Clock) (db : DB) (uid : string) (n : Z) :
  get_free_used c (inc_free_used c db uid n) uid = get_free_used c db uid + n.
Proof.
  unfold get_free_used, inc_free_used; simpl.
  rewrite lookup_insert_eq.
  destruct (usage_daily db !! (uid, today_key c)); lia.
Qed.

Lemma get_free_used_inc_many (c : Clock) (db : DB) (uid : string) (ks : list Z) :
  get_free_used c (inc_many c db uid ks) uid
  = get_free_used c db uid + fold_right Z.add 0 ks.
Proof.
  revert db; induction ks as [|k ks IH]; intros db; simpl.
  - lia.
  - rewrite IH, get_free_used_inc. lia.
Qed.

(** C3 (amended): [can_use_free(uid)] reads the day from the clock and
    compares with the hard-coded [FREE_PER_DAY = 1]: it is
    [get_free_used(uid) < 1] for the current day, and from a zero count one
    [inc_free_used(uid, 1)] on the same day turns it from true to false. *)
Theorem can_use_free_spec :
  FREE_PER_DAY = 1 /\
  forall (c : Clock) (db : DB) (uid : string),
    can_use_free c db uid = (get_free_used c db uid <? 1) /\
    (0 <= get_free_used c db uid -> can_use_free c db uid = true ->
     can_use_free c (inc_free_used c db uid 1) uid = false).
Proof.
  split; [reflexivity|].
  intros c db uid; split; [reflexivity|].
  intros Hnn Hfree.
  unfold can_use_free in *. rewrite get_free_used_inc.
  apply Z.ltb_lt in Hfree. apply Z.ltb_ge. unfold FREE_PER_DAY in *. lia.
Qed.

Lemma can_use_free_spec_witness :
  can_use_free (mkClock "2024-01-01" "t0") db_empty "u" = true /\
  can_use_free (mkClock "2024-01-01" "t1")
    (inc_free_used (mkClock "2024-01-01" "t1") db_empty "u" 1) "u" = false.
Proof.
  destruct can_use_free_spec as [_ H].
  split; [reflexivity|].
  apply (H (mkClock "2024-01-01" "t1") db_empty "u"); [vm_compute; discriminate | reflexivity].
Defined.

(** C3 (counterexample): the result does not follow a caller-chosen limit;
    with one use recorded today, [can_use_free] is false although
    [get_free_used < 2] holds for the limit 2. *)
Lemma can_use_free_ignores_limit :
  ~ (forall (daily_limit : Z) (c : Clock) (db : DB) (uid : string),
        can_use_free c db uid = (get_free_used c db uid <? daily_limit)).
Proof.
  intros H.
  pose (c := mkClock "2024-01-01" "t0").
  specialize (H 2 c (inc_free_used c db_empty "u" 1) "u").
  vm_compute in H. discriminate.
Qed.

(** C4: [get_free_used] is 0 without a row; [inc_free_used] is an upsert
    (row [n] when absent, [used + n] otherwise); after increments [k_i] on
    the same day the count is the previous count plus the sum of the [k_i],
    i.e. exactly that sum from an absent row. *)
Theorem free_used_counts_increments :
  forall (c : Clock) (db : DB) (uid : string),
    (usage_daily db !! (uid, today_key c) = None -> get_free_used c db uid = 0) /\
    (forall n : Z,
       usage_daily (inc_free_used c db uid n) !! (uid, today_key c)
       = Some (match usage_daily db !! (uid, today_key c) with
               | None => n
               | Some used => used + n
               end)) /\
    (forall ks : list Z,
       get_free_used c (inc_many c db uid ks) uid
       = get_free_used c db uid + fold_right Z.add 0 ks) /\
    (usage_daily db !! (uid, today_key c) = None ->
     forall ks : list Z,
       get_free_used c (inc_many c db uid ks) uid = fold_right Z.add 0 ks).
Proof.
  intros c db uid.
  assert (H0 : usage_daily db !! (uid, today_key c) = None ->
               get_free_used c db uid = 0)
    by (intros H; unfold get_free_used; rewrite H; reflexivity).
  split; [exact H0|].
  split.
  { intros n. unfold inc_free_used; simpl. apply lookup_insert_eq. }
  split.
  { intros ks. apply get_free_used_inc_many. }
  intros Hnone ks. rewrite get_free_used_inc_many, (H0 Hnone). lia.
Qed.

Lemma free_used_counts_increments_witness :
  get_free_used (mkClock "2024-01-01" "t")
    (inc_many (mkClock "2024-01-01" "t") db_empty "u" [1; 2; 4]) "u" = 7.
Proof.
  destruct (free_used_counts_increments (mkClock "2024-01-01" "t") db_empty "u")
    as (_ & _ & _ & H).
  apply (H eq_refl [1; 2; 4]).
Defined.

(** ** Deep credits *)

(** C5: [get_deep_credits] is 0 without a row; [add_deep_credits] is an
    upsert that sets [updated_at]; granting 3 then 2 adds 5, so a fresh
    identity ends with 5. *)
Theorem deep_credits_grant_upsert :
  forall (c c' : Clock) (db : DB) (uid : string),
    (user_credits db !! uid = None -> get_deep_credits db uid = 0) /\
    (forall n : Z,
       user_credits (add_deep_credits c db uid n) !! uid
       = Some (mkCreditRow (match user_credits db !! uid with
                            | None => n
                            | Some r => deep_credits r + n
                            end) (clock_now c))) /\
    get_deep_credits (add_deep_credits c' (add_deep_credits c db uid 3) uid 2) uid
    = get_deep_credits db uid + 5 /\
    (user_credits db !! uid = None ->
     get_deep_credits (add_deep_credits c' (add_deep_credits c db uid 3) uid 2) uid = 5).
Proof.
  intros c c' db uid.
  assert (Hadd : forall cc d n, get_deep_credits (add_deep_credits cc d uid n) uid
                               = get_deep_credits d uid + n).
  { intros cc d n. unfold get_deep_credits, add_deep_credits; simpl.
    rewrite lookup_insert_eq. destruct (user_credits d !! uid); simpl; lia. }
  assert (H0 : user_credits db !! uid = None -> get_deep_credits db uid = 0)
    by (intros H; unfold get_deep_credits; rewrite H; reflexivity).
  split; [exact H0|].
  split.
  { intros n. unfold add_deep_credits; simpl. rewrite lookup_insert_eq.
    destruct (user_credits db !! uid); reflexivity. }
  split.
  - rewrite !Hadd. lia.
  - intros Hn. rewrite !Hadd, (H0 Hn). reflexivity.
Qed.

Lemma deep_credits_grant_upsert_witness :
  get_deep_credits (add_deep_credits (mkClock "d" "t1")
                      (add_deep_credits (mkClock "d" "t0") db_empty "u" 3) "u" 2) "u" = 5.
Proof.
  destruct (deep_credits_grant_upsert (mkClock "d" "t0") (mkClock "d" "t1") db_empty "u")
    as (_ & _ & _ & H).
  apply H. reflexivity.
Defined.

(** ** Stripe sessions *)

(** C6: [mark_stripe_session_processed] is a total function (it cannot
    raise): on a new session id it inserts [(uid, now)]; on a known one it
    returns the database unchanged, keeping the stored uid and time. *)
Theorem mark_insert_or_ignore :
  forall (c : Clock) (db : DB) (session_id uid : string),
    (stripe_sessions db !! session_id = None ->
     mark_stripe_session_processed c db session_id uid
     = mkDB (usage_daily db) (user_credits db)
            (<[session_id := mkSessionRow uid (clock_now c)]> (stripe_sessions db))) /\
    (forall r : SessionRow, stripe_sessions db !! session_id = Some r ->
     mark_stripe_session_processed c db session_id uid = db /\
     stripe_sessions (mark_stripe_session_processed c db session_id uid) !! session_id
     = Some r).
Proof.
  intros c db sid uid. unfold mark_stripe_session_processed.
  split.
  - intros H. rewrite H. reflexivity.
  - intros r H. rewrite H. split; [reflexivity | exact H].
Qed.

Lemma mark_insert_or_ignore_witness :
  let db1 := mark_stripe_session_processed (mkClock "d" "t0") db_empty "cs_1" "alice" in
  mark_stripe_session_processed (mkClock "d" "t1") db1 "cs_1" "bob" = db1.
Proof.
  intros db1.
  destruct (mark_insert_or_ignore (mkClock "d" "t1") db1 "cs_1" "bob") as [_ H].
  apply (H (mkSessionRow "alice" "t0")). reflexivity.
Defined.

(** ** Consuming credits *)

Lemma update_deep_credits_lookup_eq (c : Clock) (db : DB) (uid : string) (n : Z) :
  user_credits (update_deep_credits c db uid n) !! uid
  = (fun r => mkCreditRow (deep_credits r - n) (clock_now c)) <$> user_credits db !! uid.
Proof. unfold update_deep_credits; simpl. apply lookup_alter_eq. Qed.

Lemma update_deep_credits_lookup_ne (c : Clock) (db : DB) (uid u' : string) (n : Z) :
  uid <> u' ->
  user_credits (update_deep_credits c db uid n) !! u' = user_credits db !! u'.
Proof. intros Hne. unfold update_deep_credits; simpl. by apply lookup_alter_ne. Qed.

Lemma update_deep_credits_absent (c : Clock) (db : DB) (uid : string) (n : Z) :
  user_credits db !! uid = None -> update_deep_credits c db uid n = db.
Proof.
  intros H. unfold update_deep_credits. rewrite alter_id' by exact H.
  destruct db; reflexivity.
Qed.

Lemma get_deep_credits_update (c : Clock) (db : DB) (uid : string) (n : Z) :
  get_deep_credits (update_deep_credits c db uid n) uid
  = match user_credits db !! uid with
    | Some r => deep_credits r - n
    | None => 0
    end.
Proof.
  unfold get_deep_credits. rewrite update_deep_credits_lookup_eq.
  destruct (user_credits db !! uid); reflexivity.
Qed.

(** C2 (counterexample): with [n = -1] and no row, the balance check
    [0 < -1] fails, the call returns True, and the UPDATE matches no row:
    the balance stays 0 instead of becoming [0 - (-1)]. *)
Lemma consume_negative_without_row :
  ~ (forall (c : Clock) (db : DB) (uid : string) (n : Z),
        n <= get_deep_credits db uid ->
        fst (consume_deep_credit c db uid n) = true /\
        get_deep_credits (snd (consume_deep_credit c db uid n)) uid
        = get_deep_credits db uid - n).
Proof.
  intros H.
  destruct (H (mkClock "d" "t") db_empty "u" (-1)) as [_ Hbal].
  - vm_compute. discriminate.
  - vm_compute in Hbal. discriminate.
Qed.

(** C2 (amended): below [n] the call returns False and changes nothing;
    otherwise it returns True, leaves the other tables and identities
    alone, rewrites the row of [uid] (if any) to [deep_credits - n] with a
    fresh [updated_at], and changes nothing when there is no row; hence for
    [n >= 0] the balance drops by exactly [n].  A non-negative balance stays
    non-negative. *)
Theorem consume_deep_credit_spec :
  forall (c : Clock) (db : DB) (uid : string) (n : Z),
    (get_deep_credits db uid < n -> consume_deep_credit c db uid n = (false, db)) /\
    (n <= get_deep_credits db uid ->
       fst (consume_deep_credit c db uid n) = true /\
       usage_daily (snd (consume_deep_credit c db uid n)) = usage_daily db /\
       stripe_sessions (snd (consume_deep_credit c db uid n)) = stripe_sessions db /\
       (forall u', u' <> uid ->
          user_credits (snd (consume_deep_credit c db uid n)) !! u'
          = user_credits db !! u') /\
       (forall row, user_credits db !! uid = Some row ->
          user_credits (snd (consume_deep_credit c db uid n)) !! uid
          = Some (mkCreditRow (deep_credits row - n) (clock_now c))) /\
       (user_credits db !! uid = None -> snd (consume_deep_credit c db uid n) = db) /\
       (0 <= n ->
          get_deep_credits (snd (consume_deep_credit c db uid n)) uid
          = get_deep_credits db uid - n)) /\
    (0 <= get_deep_credits db uid ->
       0 <= get_deep_credits (snd (consume_deep_credit c db uid n)) uid).
Proof.
  intros c db uid n.
  unfold consume_deep_credit.
  destruct (Z.ltb_spec (get_deep_credits db uid) n) as [Hlt | Hge].
  - split; [reflexivity|]. split; [lia|]. cbn [snd]; lia.
  - split; [lia|]. cbn [fst snd].
    split.
    + split; [reflexivity|].
      split; [reflexivity|].
      split; [reflexivity|].
      split.
      { intros u' Hne. apply update_deep_credits_lookup_ne. congruence. }
      split.
      { intros row Hrow. rewrite update_deep_credits_lookup_eq, Hrow. reflexivity. }
      split.
      { apply update_deep_credits_absent. }
      intros Hn. rewrite get_deep_credits_update.
      unfold get_deep_credits in *.
      destruct (user_credits db !! uid); lia.
    + intros Hnn. rewrite get_deep_credits_update.
      unfold get_deep_credits in *.
      destruct (user_credits db !! uid); lia.
Qed.

Lemma consume_deep_credit_spec_witness :
  let db5 := add_deep_credits (mkClock "d" "t0") db_empty "u" 5 in
  consume_deep_credit (mkClock "d" "t1") db5 "u" 10 = (false, db5) /\
  get_deep_credits (snd (consume_deep_credit (mkClock "d" "t1") db5 "u" 2)) "u" = 3.
Proof.
  intros db5.
  destruct (consume_deep_credit_spec (mkClock "d" "t1") db5 "u" 10) as [H10 _].
  destruct (consume_deep_credit_spec (mkClock "d" "t1") db5 "u" 2) as [_ [H2 _]].
  split.
  - apply H10. vm_compute. reflexivity.
  - destruct H2 as (_ & _ & _ & _ & _ & _ & H).
    + vm_compute. discriminate.
    + apply H. lia.
Defined.

(** [get_or_create_uid] (lines 155-162): [strip] is [str.strip]; [fresh]
    is [uuid.uuid4().hex[:16]].  When no usable uid is in the query string
    it stores [fresh] there and calls [st.rerun()], which ends the run. *)
Inductive UidResult :=
| UidReturned (uid : string)
| UidRerun (qp_uid : string).

Definition get_or_create_uid (strip : string -> string) (qp_uid : option string)
    (fresh : string) : UidResult :=
  let uid := strip (match qp_uid with Some v => v | None => "" end) in
  if String.eqb uid "" then UidRerun fresh else UidReturned uid.

(** ** Payment sessions *)

(** The two shapes of a [verify_and_grant_from_session] call: either the
    database is untouched and nothing is granted, or the session was not
    yet processed and the call grants 1 and marks it. *)
Lemma verify_and_grant_cases (c : Clock) (db : DB) (uid sid : string)
    (r : option StripeSession) :
  (snd (verify_and_grant_from_session c db uid sid r) = db /\
   snd (fst (verify_and_grant_from_session c db uid sid r)) <> MsgGranted) \/
  (verify_and_grant_from_session c db uid sid r
   = ((true, MsgGranted),
      mark_stripe_session_processed c (add_deep_credits c db uid 1) sid uid) /\
   String.eqb sid "" = false /\
   stripe_session_already_processed db sid = false).
Proof.
  unfold verify_and_grant_from_session.
  destruct (String.eqb sid "") eqn:Ee; [left; split; [reflexivity | discriminate]|].
  destruct (stripe_session_already_processed db sid) eqn:Ep;
    [left; split; [reflexivity | discriminate]|].
  destruct r as [sess|]; [|left; split; [reflexivity | discriminate]].
  destruct (negb (opt_str_eqb (payment_status sess) (Some "paid")));
    [left; split; [reflexivity | discriminate]|].
  destruct (truthy (session_owner sess) && negb (opt_str_eqb (session_owner sess) (Some uid)));
    [left; split; [reflexivity | discriminate]|].
  right. auto.
Qed.

Lemma mark_sessions_mono (c : Clock) (db : DB) (sid sid' uid : string) (r : SessionRow) :
  stripe_sessions db !! sid = Some r ->
  stripe_sessions (mark_stripe_session_processed c db sid' uid) !! sid = Some r.
Proof.
  intros H. unfold mark_stripe_session_processed.
  destruct (stripe_sessions db !! sid') eqn:E; [exact H|].
  cbn [stripe_sessions]. rewrite lookup_insert_ne; [exact H|].
  intros ->. congruence.
Qed.

Lemma mark_processed (c : Clock) (db : DB) (sid uid : string) :
  stripe_session_already_processed (mark_stripe_session_processed c db sid uid) sid = true.
Proof.
  unfold stripe_session_already_processed, mark_stripe_session_processed.
  destruct (stripe_sessions db !! sid) eqn:E.
  - rewrite E. reflexivity.
  - cbn [stripe_sessions]. rewrite lookup_insert_eq. reflexivity.
Qed.

Lemma mark_credits (c : Clock) (db : DB) (sid uid : string) :
  user_credits (mark_stripe_session_processed c db sid uid) = user_credits db.
Proof.
  unfold mark_stripe_session_processed. destruct (stripe_sessions db !! sid); reflexivity.
Qed.

Lemma exec_op_sessions_mono (c : Clock) (db : DB) (op : Op) (sid : string) (r : SessionRow) :
  stripe_sessions db !! sid = Some r ->
  stripe_sessions (exec_op c db op) !! sid = Some r.
Proof.
  intros H. destruct op as [u n|u n|u n|u sid' rr|sid' u]; cbn [exec_op].
  - exact H.
  - exact H.
  - unfold consume_deep_credit. destruct (get_deep_credits db u <? n); exact H.
  - destruct (verify_and_grant_cases c db u sid' rr) as [[-> _] | [-> _]]; [exact H|].
    apply mark_sessions_mono. exact H.
  - apply mark_sessions_mono. exact H.
Qed.

Lemma processed_run (tr : list (Clock * Op)) (db : DB) (sid : string) :
  stripe_session_already_processed db sid = true ->
  stripe_session_already_processed (run tr db) sid = true.
Proof.
  revert db; induction tr as [|[c op] tr IH]; intros db H; [exact H|].
  cbn [run]. apply IH.
  unfold stripe_session_already_processed in *.
  destruct (stripe_sessions db !! sid) as [r|] eqn:E; [|discriminate].
  rewrite (exec_op_sessions_mono c db op sid r E). reflexivity.
Qed.

Lemma grants_for_processed (sid : string) (tr : list (Clock * Op)) (db : DB) :
  stripe_session_already_processed db sid = true -> grants_for sid tr db = 0%nat.
Proof.
  revert db; induction tr as [|[c op] tr IH]; intros db H; [reflexivity|].
  cbn [grants_for].
  rewrite (IH (exec_op c db op)).
  2:{ apply (processed_run [(c, op)] db sid H). }
  destruct op as [u n|u n|u n|u sid' rr|sid' u]; try reflexivity.
  destruct (String.eqb_spec sid' sid) as [->|]; [|reflexivity].
  destruct (verify_and_grant_cases c db u sid rr) as [[_ Hm] | [_ [_ Hp]]];
    [|congruence].
  destruct (fst (verify_and_grant_from_session c db u sid rr)) as [b m].
  destruct m; try reflexivity. cbn in Hm. congruence.
Qed.

Lemma grants_for_at_most_one (sid : string) (tr : list (Clock * Op)) (db : DB) :
  (grants_for sid tr db <= 1)%nat.
Proof.
  revert db; induction tr as [|[c op] tr IH]; intros db; cbn [grants_for]; [lia|].
  destruct op as [u n|u n|u n|u sid' rr|sid' u]; try apply IH.
  destruct (String.eqb_spec sid' sid) as [->|]; [|apply IH].
  destruct (verify_and_grant_cases c db u sid rr) as [[Hd Hm] | [Hv _]].
  - destruct (fst (verify_and_grant_from_session c db u sid rr)) as [b m] eqn:Ef.
    destruct m; try apply IH. cbn in Hm. congruence.
  - rewrite Hv. cbn [fst snd exec_op]. rewrite Hv. cbn [snd].
    rewrite grants_for_processed by apply mark_processed. lia.
Qed.

(** C1: for a session id [sid], no trace of ledger calls grants for it more
    than once (and none at all once it is processed); after a call that
    granted, the balance rose by exactly 1, [sid] is processed and stays
    processed through any later calls, and every later call with [sid]
    (any identity, any Stripe answer) returns success without changing the
    database. *)
Theorem apply_verified_payment_idempotent :
  forall sid : string,
    (forall (tr : list (Clock * Op)) (db : DB), (grants_for sid tr db <= 1)%nat) /\
    (forall (tr : list (Clock * Op)) (db : DB),
       stripe_session_already_processed db sid = true -> grants_for sid tr db = 0%nat) /\
    (forall (c : Clock) (db : DB) (uid : string) (r : option StripeSession) (db1 : DB),
       verify_and_grant_from_session c db uid sid r = ((true, MsgGranted), db1) ->
       get_deep_credits db1 uid = get_deep_credits db uid + 1 /\
       stripe_session_already_processed db1 sid = true /\
       forall tr : list (Clock * Op),
         stripe_session_already_processed (run tr db1) sid = true /\
         forall (c' : Clock) (uid' : string) (r' : option StripeSession),
           verify_and_grant_from_session c' (run tr db1) uid' sid r'
           = ((true, MsgAlreadyProcessed), run tr db1)).
Proof.
  intros sid.
  split; [apply grants_for_at_most_one|].
  split; [intros tr db; apply grants_for_processed|].
  intros c db uid r db1 Hv.
  destruct (verify_and_grant_cases c db uid sid r) as [[Hd Hm] | [Hv' [He _]]].
  { rewrite Hv in Hm. cbn in Hm. congruence. }
  rewrite Hv in Hv'. injection Hv' as Hdb1. subst db1.
  assert (Hp : stripe_session_already_processed
                 (mark_stripe_session_processed c (add_deep_credits c db uid 1) sid uid) sid
               = true) by apply mark_processed.
  split.
  { unfold get_deep_credits. rewrite mark_credits. unfold add_deep_credits.
    cbn [user_credits]. rewrite lookup_insert_eq.
    destruct (user_credits db !! uid); cbn; lia. }
  split; [exact Hp|].
  intros tr. pose proof (processed_run tr _ sid Hp) as Hpr.
  split; [exact Hpr|].
  intros c' uid' r'. unfold verify_and_grant_from_session.
  rewrite He, Hpr. reflexivity.
Qed.

Definition paid_session (owner : string) : StripeSession :=
  mkStripeSession (Some "paid") (Some "complete") (Some owner) (Some owner).

Lemma apply_verified_payment_idempotent_witness :
  let c := mkClock "2024-01-01" "t0" in
  let db1 := snd (verify_and_grant_from_session c db_empty "u" "ref-123"
                    (Some (paid_session "u"))) in
  get_deep_credits db1 "u" = 1 /\
  verify_and_grant_from_session c db1 "u" "ref-123" (Some (paid_session "u"))
  = ((true, MsgAlreadyProcessed), db1).
Proof.
  intros c db1.
  destruct (apply_verified_payment_idempotent "ref-123") as (_ & _ & H).
  destruct (H c db_empty "u" (Some (paid_session "u")) db1) as (Hb & _ & Hr).
  - reflexivity.
  - split; [exact Hb|].
    exact (proj2 (Hr []) c "u" (Some (paid_session "u"))).
Defined.

(** ** Cross-identity isolation *)

Lemma frame_refl (B : string) (db : DB) : frame_of B db db.
Proof. split; [|split]; [intros; reflexivity | reflexivity | intros; reflexivity]. Qed.

Lemma frame_trans (B : string) (db1 db2 db3 : DB) :
  frame_of B db1 db2 -> frame_of B db2 db3 -> frame_of B db1 db3.
Proof.
  intros (H1 & H2 & H3) (G1 & G2 & G3).
  split; [|split].
  - intros d. rewrite G1. apply H1.
  - rewrite G2. exact H2.
  - intros sid r Hr. rewrite G3 by exact Hr. apply H3. exact Hr.
Qed.

Lemma inc_free_used_frame (c : Clock) (db : DB) (A B : string) (n : Z) :
  A <> B -> frame_of B db (inc_free_used c db A n).
Proof.
  intros Hne. split; [|split]; cbn [inc_free_used usage_daily user_credits stripe_sessions];
    [|reflexivity|intros; reflexivity].
  intros d. apply lookup_insert_ne. intros Heq. injection Heq as Heq _. congruence.
Qed.

Lemma add_deep_credits_frame (c : Clock) (db : DB) (A B : string) (n : Z) :
  A <> B -> frame_of B db (add_deep_credits c db A n).
Proof.
  intros Hne. split; [|split]; cbn [add_deep_credits usage_daily user_credits stripe_sessions];
    [intros; reflexivity| |intros; reflexivity].
  apply lookup_insert_ne. exact Hne.
Qed.

Lemma update_deep_credits_frame (c : Clock) (db : DB) (A B : string) (n : Z) :
  A <> B -> frame_of B db (update_deep_credits c db A n).
Proof.
  intros Hne. split; [|split]; [intros; reflexivity| |intros; reflexivity].
  apply update_deep_credits_lookup_ne. exact Hne.
Qed.

Lemma mark_frame (c : Clock) (db : DB) (sid A B : string) :
  A <> B -> frame_of B db (mark_stripe_session_processed c db sid A).
Proof.
  intros Hne. unfold mark_stripe_session_processed.
  destruct (stripe_sessions db !! sid) eqn:E; [apply frame_refl|].
  split; [|split]; [intros; reflexivity|reflexivity|].
  intros sid' r Hr. cbn [stripe_sessions].
  destruct (decide (sid = sid')) as [<-|Hs].
  - rewrite lookup_insert_eq, E. split; intros Hx; [|discriminate].
    injection Hx as <-. cbn in Hr. congruence.
  - rewrite lookup_insert_ne by exact Hs. reflexivity.
Qed.

(** C7: a ledger call made for identity [A] leaves everything stored under
    another identity [B] unchanged: its daily counts for every day, its
    credit row, and the set of processed-session rows recorded for [B]. *)
Theorem cross_identity_isolation :
  forall (c : Clock) (db : DB) (op : Op) (B : string),
    op_identity op <> B -> frame_of B db (exec_op c db op).
Proof.
  intros c db op B Hne.
  destruct op as [u n|u n|u n|u sid rr|sid u]; cbn [op_identity exec_op] in *.
  - apply inc_free_used_frame. exact Hne.
  - apply add_deep_credits_frame. exact Hne.
  - unfold consume_deep_credit. destruct (get_deep_credits db u <? n);
      [apply frame_refl | apply update_deep_credits_frame; exact Hne].
  - destruct (verify_and_grant_cases c db u sid rr) as [[-> _] | [-> _]];
      [apply frame_refl|].
    eapply frame_trans; [apply add_deep_credits_frame; exact Hne|].
    apply mark_frame. exact Hne.
  - apply mark_frame. exact Hne.
Qed.

Lemma cross_identity_isolation_witness :
  let c := mkClock "2024-01-01" "t0" in
  let db0 := add_deep_credits c db_empty "B" 4 in
  frame_of "B" db0 (exec_op c db0 (OpVerify "A" "cs_9" (Some (paid_session "A")))).
Proof.
  intros c db0. apply cross_identity_isolation. cbn. discriminate.
Defined.

(** ** Non-negative balances *)

Lemma exec_op_balances_nonneg (c : Clock) (db : DB) (op : Op) :
  grants_positive (c, op) -> balances_nonneg db -> balances_nonneg (exec_op c db op).
Proof.
  intros Hg Hinv.
  assert (Hadd : forall cc d A (n : Z), 0 <= n -> balances_nonneg d ->
                   balances_nonneg (add_deep_credits cc d A n)).
  { intros cc d A n Hn Hd u r. unfold add_deep_credits. cbn [user_credits].
    destruct (decide (A = u)) as [<-|Hs].
    - rewrite lookup_insert_eq. intros Hr; injection Hr as <-.
      destruct (user_credits d !! A) as [r0|] eqn:E; cbn; [|lia].
      pose proof (Hd A r0 E). lia.
    - rewrite lookup_insert_ne by exact Hs. apply Hd. }
  assert (Hmark : forall cc d sid A, balances_nonneg d ->
                    balances_nonneg (mark_stripe_session_processed cc d sid A)).
  { intros cc d sid A Hd u r. rewrite mark_credits. apply Hd. }
  destruct op as [A n|A n|A n|A sid rr|sid A]; cbn [exec_op grants_positive snd] in *.
  - exact Hinv.
  - apply Hadd; [lia | exact Hinv].
  - unfold consume_deep_credit.
    destruct (Z.ltb_spec (get_deep_credits db A) n) as [_|Hge]; [exact Hinv|].
    cbn [snd]. intros u r. unfold update_deep_credits. cbn [user_credits].
    destruct (decide (A = u)) as [<-|Hs].
    + rewrite lookup_alter_eq. unfold get_deep_credits in Hge.
      destruct (user_credits db !! A) as [r0|] eqn:E; cbn; [|discriminate].
      intros Hr; injection Hr as <-. cbn. lia.
    + rewrite lookup_alter_ne by exact Hs. apply Hinv.
  - destruct (verify_and_grant_cases c db A sid rr) as [[-> _] | [-> _]]; [exact Hinv|].
    apply Hmark, Hadd; [lia | exact Hinv].
  - apply Hmark. exact Hinv.
Qed.

(** C8: from the empty store, along any trace of ledger calls whose direct
    grants all use a positive amount, every stored balance stays >= 0 (and
    so does every value read by [get_deep_credits]). *)
Theorem balance_never_negative :
  forall tr : list (Clock * Op),
    Forall grants_positive tr ->
    balances_nonneg (run tr db_empty) /\
    forall u : string, 0 <= get_deep_credits (run tr db_empty) u.
Proof.
  intros tr Htr.
  assert (Hinv : forall db, balances_nonneg db -> balances_nonneg (run tr db)).
  { induction Htr as [|[c op] tr' Hp _ IH]; intros db Hdb; [exact Hdb|].
    cbn [run]. apply IH. apply exec_op_balances_nonneg; assumption. }
  assert (H0 : balances_nonneg (run tr db_empty))
    by (apply Hinv; intros u r Hr; discriminate).
  split; [exact H0|].
  intros u. unfold get_deep_credits.
  destruct (user_credits (run tr db_empty) !! u) as [r|] eqn:E; [|lia].
  exact (H0 u r E).
Qed.

Lemma balance_never_negative_witness :
  let c := mkClock "2024-01-01" "t0" in
  0 <= get_deep_credits
         (run [(c, OpGrant "u1" 1); (c, OpConsume "u1" 1); (c, OpConsume "u1" 1);
               (c, OpConsume "u1" (-2))] db_empty) "u1".
Proof.
  intros c. apply balance_never_negative.
  repeat constructor.
Defined.

(** ** Identity binding of a Stripe session *)

(** C10: an empty session id fails without touching the database; a paid,
    not yet processed session whose owner ([client_reference_id], else the
    metadata uid) is a non-empty identity other than the caller fails with
    [MsgUidMismatch], grants nothing and records nothing. *)
Theorem verify_identity_guard :
  forall (c : Clock) (db : DB) (uid session_id : string),
    (session_id = "" -> forall r : option StripeSession,
       verify_and_grant_from_session c db uid session_id r
       = ((false, MsgMissingSessionId), db)) /\
    (forall (sess : StripeSession) (owner : string),
       session_id <> "" ->
       stripe_session_already_processed db session_id = false ->
       payment_status sess = Some "paid" ->
       session_owner sess = Some owner -> owner <> "" -> owner <> uid ->
       verify_and_grant_from_session c db uid session_id (Some sess)
       = ((false, MsgUidMismatch), db)).
Proof.
  intros c db uid sid.
  split; [intros -> r; reflexivity|].
  intros sess owner Hsid Hp Hpaid Howner Hne Hdiff.
  unfold verify_and_grant_from_session.
  destruct (String.eqb_spec sid "") as [|_]; [contradiction|].
  rewrite Hp, Hpaid. cbn [opt_str_eqb negb String.eqb].
  rewrite Howner. cbn [truthy opt_str_eqb].
  destruct (String.eqb_spec owner "") as [|_]; [contradiction|].
  destruct (String.eqb_spec owner uid) as [|_]; [contradiction|].
  reflexivity.
Qed.

Lemma verify_identity_guard_witness :
  let c := mkClock "2024-01-01" "t0" in
  verify_and_grant_from_session c db_empty "mallory" "cs_7" (Some (paid_session "alice"))
  = ((false, MsgUidMismatch), db_empty).
Proof.
  intros c.
  destruct (verify_identity_guard c db_empty "mallory" "cs_7") as [_ H].
  apply (H (paid_session "alice") "alice"); try reflexivity; discriminate.
Defined.

(** ** Concurrent consumption *)

(** C9 (counterexample): two concurrent [consume_deep_credit(u, 1)] calls
    against a balance of 1, scheduled SELECT, SELECT, UPDATE, UPDATE, both
    see 1 and both return True; the balance ends at -1, not 0. *)
Lemma concurrent_consume_overdraw :
  ~ (forall (c : Clock) (db : DB) (uid : string) (N : nat) (sched : list nat)
            (db' : DB) (ts' : list Thread),
        get_deep_credits db uid = Z.of_nat N - 1 ->
        run_sched c sched db (repeat (TStart uid 1) N) = (db', ts') ->
        Forall (fun t => thread_result t <> None) ts' ->
        successes ts' = (N - 1)%nat /\ get_deep_credits db' uid = 0).
Proof.
  intros H.
  pose (c := mkClock "2024-01-01" "t0").
  pose (db1 := add_deep_credits c db_empty "u" 1).
  destruct (H c db1 "u" 2%nat [0; 1; 0; 1]%nat
              (update_deep_credits c (update_deep_credits c db1 "u" 1) "u" 1)
              [TDone true; TDone true]) as [Hs Hb].
  - reflexivity.
  - vm_compute. reflexivity.
  - repeat constructor; discriminate.
  - vm_compute in Hs. discriminate.
Qed.

Lemma run_sched_serial (c : Clock) (db : DB) (ts : list Thread) (i : nat)
    (uid : string) (n : Z) :
  ts !! i = Some (TStart uid n) ->
  run_sched c [i; i] db ts
  = (snd (consume_deep_credit c db uid n),
     <[i := TDone (fst (consume_deep_credit c db uid n))]> ts).
Proof.
  intros Hi.
  pose proof (lookup_lt_Some _ _ _ Hi) as Hlt.
  cbn [run_sched]. rewrite Hi. cbn [thread_step].
  rewrite list_lookup_insert_eq by exact Hlt. cbn [thread_step].
  unfold consume_deep_credit.
  destruct (get_deep_credits db uid <? n); cbn [run_sched fst snd];
    rewrite list_insert_insert_eq; reflexivity.
Qed.

Lemma consume_seq_S (c : Clock) (db : DB) (uid : string) (m : nat) :
  consume_seq c db uid (S m)
  = (fst (consume_deep_credit c db uid 1)
       :: fst (consume_seq c (snd (consume_deep_credit c db uid 1)) uid m),
     snd (consume_seq c (snd (consume_deep_credit c db uid 1)) uid m)).
Proof.
  cbn [consume_seq].
  destruct (consume_deep_credit c db uid 1) as [b db1]. cbn [fst snd].
  destruct (consume_seq c db1 uid m). reflexivity.
Qed.

Lemma consume_seq_balance (c : Clock) (uid : string) (k : nat) :
  forall db : DB, get_deep_credits db uid = Z.of_nat k ->
  fst (consume_seq c db uid (S k)) = repeat true k ++ [false] /\
  get_deep_credits (snd (consume_seq c db uid (S k))) uid = 0.
Proof.
  induction k as [|k IH]; intros db Hb.
  - rewrite consume_seq_S. unfold consume_deep_credit. rewrite Hb. cbn.
    split; [reflexivity | exact Hb].
  - rewrite consume_seq_S. unfold consume_deep_credit.
    rewrite Hb.
    destruct (Z.ltb_spec (Z.of_nat (S k)) 1) as [Hlt|_]; [lia|].
    assert (Hb1 : get_deep_credits (update_deep_credits c db uid 1) uid = Z.of_nat k).
    { rewrite get_deep_credits_update. unfold get_deep_credits in Hb.
      destruct (user_credits db !! uid); lia. }
    destruct (IH _ Hb1) as [Hf Hs].
    cbn [fst snd]. rewrite Hf. split; [reflexivity | exact Hs].
Qed.

(** C9 (amended): the SELECT and the UPDATE of [consume_deep_credit] are
    separate steps with no lock between them, so only serialized calls are
    guaranteed: a call whose two steps run back to back behaves as
    [consume_deep_credit], and [k+1] such calls [consume(uid, 1)] against a
    balance of [k] succeed [k] times, fail the last time, and leave 0. *)
Theorem serialized_consume_exact :
  (forall (c : Clock) (db : DB) (ts : list Thread) (i : nat) (uid : string) (n : Z),
     ts !! i = Some (TStart uid n) ->
     run_sched c [i; i] db ts
     = (snd (consume_deep_credit c db uid n),
        <[i := TDone (fst (consume_deep_credit c db uid n))]> ts)) /\
  (forall (c : Clock) (db : DB) (uid : string) (k : nat),
     get_deep_credits db uid = Z.of_nat k ->
     fst (consume_seq c db uid (S k)) = repeat true k ++ [false] /\
     get_deep_credits (snd (consume_seq c db uid (S k))) uid = 0).
Proof.
  split.
  - intros c db ts i uid n Hi. apply run_sched_serial. exact Hi.
  - intros c db uid k Hb. apply consume_seq_balance. exact Hb.
Qed.

Lemma serialized_consume_exact_witness :
  let c := mkClock "2024-01-01" "t0" in
  fst (consume_seq c (add_deep_credits c db_empty "u" 2) "u" 3) = [true; true; false].
Proof.
  intros c.
  exact (proj1 (proj2 serialized_consume_exact c (add_deep_credits c db_empty "u" 2)
                  "u" 2%nat eq_refl)).
Defined.

(** * Properties of the code around the ledger *)

(** ** Free quota and days *)

(** An increment on one day, or for another identity, leaves the count read
    for a different day or a different identity unchanged. *)
Theorem inc_free_used_other_day_or_identity :
  forall (c c' : Clock) (db : DB) (uid uid' : string) (n : Z),
    (today_key c <> today_key c' \/ uid <> uid') ->
    get_free_used c' (inc_free_used c db uid n) uid' = get_free_used c' db uid'.
Proof.
  intros c c' db uid uid' n Hne.
  unfold get_free_used, inc_free_used. cbn [usage_daily].
  rewrite lookup_insert_ne; [reflexivity|].
  intros Heq. injection Heq as H1 H2. destruct Hne; congruence.
Qed.

Lemma inc_free_used_other_day_or_identity_witness :
  get_free_used (mkClock "2024-01-02" "t1")
    (inc_free_used (mkClock "2024-01-01" "t0") db_empty "u" 1) "u" = 0.
Proof.
  apply (inc_free_used_other_day_or_identity (mkClock "2024-01-01" "t0")
           (mkClock "2024-01-02" "t1") db_empty "u" "u" 1).
  left. cbn. discriminate.
Defined.

(** The status bar's "free left today" is positive exactly when
    [can_use_free] holds, and it is at most [FREE_PER_DAY]. *)
Theorem free_left_matches_can_use_free :
  forall (c : Clock) (db : DB) (uid : string),
    (0 < free_left c db uid <-> can_use_free c db uid = true) /\
    (0 <= get_free_used c db uid -> free_left c db uid <= FREE_PER_DAY).
Proof.
  intros c db uid. unfold free_left, can_use_free, FREE_PER_DAY.
  split; [|lia].
  rewrite Z.ltb_lt. lia.
Qed.

Lemma free_left_matches_can_use_free_witness :
  free_left (mkClock "d" "t") db_empty "u" <= FREE_PER_DAY.
Proof.
  apply (proj2 (free_left_matches_can_use_free (mkClock "d" "t") db_empty "u")).
  vm_compute. discriminate.
Defined.

(** ** Composition of grant and consume *)

(** Granting [n >= 0] credits and then consuming [n] succeeds and gives the
    balance back, whatever it was, as long as it was not negative. *)
Theorem grant_then_consume_restores :
  forall (c c' : Clock) (db : DB) (uid : string) (n : Z),
    0 <= n -> 0 <= get_deep_credits db uid ->
    fst (consume_deep_credit c' (add_deep_credits c db uid n) uid n) = true /\
    get_deep_credits (snd (consume_deep_credit c' (add_deep_credits c db uid n) uid n)) uid
    = get_deep_credits db uid.
Proof.
  intros c c' db uid n Hn Hb.
  assert (Hadd : user_credits (add_deep_credits c db uid n) !! uid
                 = Some (mkCreditRow (get_deep_credits db uid + n) (clock_now c))).
  { unfold add_deep_credits, get_deep_credits. cbn [user_credits].
    rewrite lookup_insert_eq. destruct (user_credits db !! uid); reflexivity. }
  assert (Hg : get_deep_credits (add_deep_credits c db uid n) uid
               = get_deep_credits db uid + n)
    by (unfold get_deep_credits at 1; rewrite Hadd; reflexivity).
  unfold consume_deep_credit. rewrite Hg.
  destruct (Z.ltb_spec (get_deep_credits db uid + n) n) as [|_]; [lia|].
  cbn [fst snd]. split; [reflexivity|].
  rewrite get_deep_credits_update, Hadd. cbn. lia.
Qed.

Lemma grant_then_consume_restores_witness :
  get_deep_credits (snd (consume_deep_credit (mkClock "d" "t1")
                           (add_deep_credits (mkClock "d" "t0") db_empty "u" 3) "u" 3)) "u" = 0.
Proof.
  apply (grant_then_consume_restores (mkClock "d" "t0") (mkClock "d" "t1") db_empty "u" 3);
    vm_compute; discriminate.
Defined.

(** ** Generating a reading *)

(** What the generation block charges: with no deep credit and no free use
    left it shows the paywall and changes nothing; with a deep credit it
    spends exactly one, whatever the model call does, and leaves the free
    count alone; otherwise it adds one free use, but only if [ai_free]
    returned. *)
Theorem generate_reading_charges :
  forall (c : Clock) (db : DB) (uid : string) (ai : AiResult),
    (get_deep_credits db uid <= 0 -> can_use_free c db uid = false ->
       generate_reading c db uid ai = (GenPaywall, db)) /\
    (0 < get_deep_credits db uid ->
       fst (generate_reading c db uid ai) = GenDone true /\
       get_deep_credits (snd (generate_reading c db uid ai)) uid
       = get_deep_credits db uid - 1 /\
       usage_daily (snd (generate_reading c db uid ai)) = usage_daily db /\
       stripe_sessions (snd (generate_reading c db uid ai)) = stripe_sessions db) /\
    (get_deep_credits db uid <= 0 -> can_use_free c db uid = true ->
       fst (generate_reading c db uid ai) = GenDone false /\
       (ai = AiRaised -> snd (generate_reading c db uid ai) = db) /\
       (ai <> AiRaised ->
          get_free_used c (snd (generate_reading c db uid ai)) uid
          = get_free_used c db uid + 1 /\
          user_credits (snd (generate_reading c db uid ai)) = user_credits db)).
Proof.
  intros c db uid ai. unfold generate_reading.
  destruct (Z.ltb_spec 0 (get_deep_credits db uid)) as [Hpos|Hle].
  - split; [lia|]. split; [|lia].
    intros _. cbn [negb andb]. unfold consume_deep_credit.
    destruct (Z.ltb_spec (get_deep_credits db uid) 1) as [|_]; [lia|].
    cbn [negb fst snd]. split; [reflexivity|].
    split; [|split; reflexivity].
    rewrite get_deep_credits_update. unfold get_deep_credits in *.
    destruct (user_credits db !! uid); lia.
  - split.
    { intros _ Hf. rewrite Hf. reflexivity. }
    split; [lia|].
    intros _ Hf. rewrite Hf. cbn [negb andb].
    split; [destruct ai; reflexivity|].
    split; [intros ->; reflexivity|].
    intros Hai. destruct ai; [congruence| | |];
      (split; [apply get_free_used_inc | reflexivity]).
Qed.

Lemma generate_reading_charges_witness :
  let db1 := add_deep_credits (mkClock "d" "t0") db_empty "u" 2 in
  get_deep_credits (snd (generate_reading (mkClock "d" "t1") db1 "u" AiRaised)) "u" = 1.
Proof.
  intros db1.
  destruct (generate_reading_charges (mkClock "d" "t1") db1 "u" AiRaised) as (_ & H & _).
  destruct H as (_ & H & _); [vm_compute; reflexivity|].
  rewrite H. reflexivity.
Defined.

(** The "深度次数不足" stop of the generation block (lines 799-801) is never
    taken: a deep reading is only attempted when [deep_left > 0], and then
    [consume_deep_credit(uid, 1)] succeeds. *)
Theorem generate_reading_never_stopped :
  forall (c : Clock) (db : DB) (uid : string) (ai : AiResult),
    fst (generate_reading c db uid ai) <> GenStopped.
Proof.
  intros c db uid ai.
  destruct (generate_reading_charges c db uid ai) as (Hpay & Hdeep & Hfree).
  destruct (Z.ltb_spec 0 (get_deep_credits db uid)) as [Hpos|Hle].
  - rewrite (proj1 (Hdeep Hpos)). discriminate.
  - destruct (can_use_free c db uid) eqn:Ef.
    + rewrite (proj1 (Hfree Hle eq_refl)). discriminate.
    + rewrite (Hpay Hle eq_refl). discriminate.
Qed.

(** The paywall of the generation block appears exactly when the status bar
    shows no free use left and no deep credit. *)
Theorem paywall_iff_status_bar_empty :
  forall (c : Clock) (db : DB) (uid : string) (ai : AiResult),
    fst (generate_reading c db uid ai) = GenPaywall <->
    free_left c db uid = 0 /\ get_deep_credits db uid <= 0.
Proof.
  intros c db uid ai.
  destruct (generate_reading_charges c db uid ai) as (Hpay & Hdeep & Hfree).
  pose proof (proj1 (free_left_matches_can_use_free c db uid)) as Hfl.
  assert (Hnn : 0 <= free_left c db uid) by (unfold free_left; lia).
  destruct (Z.ltb_spec 0 (get_deep_credits db uid)) as [Hpos|Hle].
  - rewrite (proj1 (Hdeep Hpos)). split; [discriminate | lia].
  - destruct (can_use_free c db uid) eqn:Ef.
    + rewrite (proj1 (Hfree Hle eq_refl)).
      split; [discriminate|]. intros [H0 _]. pose proof (proj2 Hfl eq_refl). lia.
    + rewrite (Hpay Hle eq_refl). split; [|reflexivity].
      intros _. split; [|exact Hle].
      destruct (Z.eq_dec (free_left c db uid) 0) as [|Hne]; [assumption|].
      assert (0 < free_left c db uid) by lia. apply Hfl in H. discriminate.
Qed.

(** ** Page flow *)

Lemma reset_reading_inv (s : Stage) (drawn : list (Card * string)) (r : Z) :
  -1 <= r <= 2 -> (drawn = [] \/ length drawn = 3%nat) ->
  flow_inv (reset_reading s drawn r).
Proof.
  intros Hr Hd. split; [exact Hr|]. split; [exact Hd|]. cbn. congruence.
Qed.

Lemma label_deck_length (deck : Card * Card * Card) : length (label_deck deck) = 3%nat.
Proof. destruct deck as [[c1 c2] c3]. reflexivity. Qed.

Lemma draw_block_shown_spec (fl : Flow) :
  draw_block_shown fl = true ->
  in_draw_stage (stage fl) = true /\ drawn_cards fl <> [].
Proof.
  unfold draw_block_shown. intros H. apply andb_prop in H as [H1 H2].
  split; [exact H1|]. destruct (drawn_cards fl); [discriminate | congruence].
Qed.

Lemma generation_pending_spec (fl : Flow) :
  generation_pending fl = true ->
  in_draw_stage (stage fl) = true /\ drawn_cards fl <> [] /\
  2 <= reveal_index fl /\ reading fl = None.
Proof.
  unfold generation_pending. intros H.
  apply andb_prop in H as [H H3]. apply andb_prop in H as [H1 H2].
  apply draw_block_shown_spec in H1 as [Hs Hd].
  apply Z.leb_le in H2.
  destruct (reading fl); [discriminate|]. auto.
Qed.

Lemma app_step_inv (c : Clock) (uid : string) (fl : Flow) (db : DB) (a : Action) :
  flow_inv fl -> flow_inv (fst (app_step c uid (fl, db) a)).
Proof.
  intros Hinv. pose proof Hinv as (Hr & Hd & Hrd).
  destruct a as [blank| |deck| | | |ai|ai]; cbn [app_step].
  - destruct blank; [exact Hinv|]. apply reset_reading_inv; [lia | left; reflexivity].
  - apply reset_reading_inv; [lia | left; reflexivity].
  - destruct (in_followup_stage (stage fl)); [|exact Hinv].
    apply reset_reading_inv; [lia | right; apply label_deck_length].
  - destruct (draw_block_shown fl); [|exact Hinv].
    destruct (Z.ltb_spec (reveal_index fl) 2); [|exact Hinv].
    apply reset_reading_inv; [lia | exact Hd].
  - destruct (draw_block_shown fl); [|exact Hinv].
    destruct (Z.leb_spec 0 (reveal_index fl)); [|exact Hinv].
    apply reset_reading_inv; [lia | exact Hd].
  - destruct (draw_block_shown fl); [|exact Hinv].
    apply reset_reading_inv; [lia | left; reflexivity].
  - destruct (generation_pending fl) eqn:Hp; [|exact Hinv].
    apply generation_pending_spec in Hp as (Hs & Hne & H2 & _).
    assert (H3 : length (drawn_cards fl) = 3%nat) by (destruct Hd; [congruence | assumption]).
    destruct (generate_reading c db uid ai) as [o db1].
    destruct o as [| |deep]; [exact Hinv | exact Hinv|].
    destruct ai; cbn [fst];
      (split; [cbn; lia|]; split; [cbn; right; exact H3|]);
      intros _; cbn; repeat split; (lia || assumption || reflexivity).
  - destruct (reading fl) as [rd|] eqn:Er; cbn [andb]; [|exact Hinv].
    destruct (negb (reading_is_deep fl) && (0 <? get_deep_credits db uid)); [|exact Hinv].
    destruct (consume_deep_credit c db uid 1) as [ok db1].
    destruct ok; cbn [negb]; [|exact Hinv].
    destruct (Hrd ltac:(congruence)) as (H2 & H3 & Hs).
    split; [cbn; lia|]. split; [cbn; exact Hd|].
    intros _. cbn. auto.
Qed.

Lemma app_run_inv (c : Clock) (uid : string) (acts : list Action) :
  forall (fl : Flow) (db : DB), flow_inv fl -> flow_inv (fst (app_run c uid (fl, db) acts)).
Proof.
  induction acts as [|a acts IH]; intros fl db H; [exact H|].
  cbn [app_run]. destruct (app_step c uid (fl, db) a) as [fl1 db1] eqn:E.
  apply IH. change fl1 with (fst (fl1, db1)). rewrite <- E. apply app_step_inv. exact H.
Qed.

(** Every flow reachable from a new session keeps [-1 <= reveal_index <= 2],
    has either no drawn cards or exactly three, and holds a reading only
    when all three cards are revealed and the draw block is on screen. *)
Theorem flow_invariant_reachable :
  forall (c : Clock) (uid : string) (db : DB) (acts : list Action),
    flow_inv (fst (app_run c uid (init_flow, db) acts)).
Proof.
  intros c uid db acts. apply app_run_inv.
  split; [cbn; lia|]. split; [left; reflexivity|]. cbn. congruence.
Qed.

(** The card display loop ([c = drawn[i]] for [i <= reveal], lines 762-764)
    never indexes past the drawn cards. *)
Theorem revealed_cards_in_range :
  forall (c : Clock) (uid : string) (db : DB) (acts : list Action) (i : Z),
    draw_block_shown (fst (app_run c uid (init_flow, db) acts)) = true ->
    0 <= i <= reveal_index (fst (app_run c uid (init_flow, db) acts)) ->
    is_Some (drawn_cards (fst (app_run c uid (init_flow, db) acts)) !! Z.to_nat i).
Proof.
  intros c uid db acts i Hshown Hi.
  destruct (flow_invariant_reachable c uid db acts) as (Hr & Hd & _).
  apply draw_block_shown_spec in Hshown as [_ Hne].
  destruct Hd as [|H3]; [contradiction|].
  apply lookup_lt_is_Some_2. rewrite H3. lia.
Qed.

Lemma revealed_cards_in_range_witness :
  is_Some (drawn_cards (fst (app_run (mkClock "d" "t") "u" (init_flow, db_empty)
             [ANext false; ADraw (sample_card, sample_card, sample_card);
              ARevealNext; ARevealNext])) !! Z.to_nat 1).
Proof.
  apply revealed_cards_in_range; [reflexivity|].
  split; [lia|]. vm_compute. discriminate.
Defined.

Lemma generate_reading_paywall (c : Clock) (db : DB) (uid : string) (ai ai' : AiResult)
    (db1 : DB) :
  generate_reading c db uid ai = (GenPaywall, db1) ->
  db1 = db /\ generate_reading c db uid ai' = (GenPaywall, db).
Proof.
  intros Hg.
  destruct (generate_reading_charges c db uid ai) as (_ & Hdeep & Hfree).
  destruct (generate_reading_charges c db uid ai') as (Hpay' & _ & _).
  destruct (Z.ltb_spec 0 (get_deep_credits db uid)) as [Hpos|Hle].
  - pose proof (proj1 (Hdeep Hpos)) as H. rewrite Hg in H. discriminate.
  - destruct (can_use_free c db uid) eqn:Ef.
    + pose proof (proj1 (Hfree Hle eq_refl)) as H. rewrite Hg in H. discriminate.
    + destruct (generate_reading_charges c db uid ai) as (Hpay & _ & _).
      rewrite (Hpay Hle Ef) in Hg. injection Hg as <-.
      split; [reflexivity | exact (Hpay' Hle eq_refl)].
Qed.

(** Once the generation block has run, running it again (the next rerun of
    the page) changes nothing: a reading is charged at most once until a
    button resets it. *)
Theorem generation_runs_once :
  forall (c : Clock) (uid : string) (fl : Flow) (db : DB) (ai ai' : AiResult),
    app_step c uid (app_step c uid (fl, db) (AGenerate ai)) (AGenerate ai')
    = app_step c uid (fl, db) (AGenerate ai).
Proof.
  intros c uid fl db ai ai'.
  cbn [app_step].
  destruct (generation_pending fl) eqn:Hp; [|cbn [app_step]; rewrite Hp; reflexivity].
  destruct (generate_reading c db uid ai) as [o db1] eqn:Hg.
  destruct o as [| |deep].
  - destruct (generate_reading_paywall c db uid ai ai' db1 Hg) as [-> Hg'].
    cbn [app_step]. rewrite Hp, Hg'. reflexivity.
  - exfalso. apply (generate_reading_never_stopped c db uid ai). rewrite Hg. reflexivity.
  - destruct ai; cbn [app_step];
      unfold generation_pending; cbn [reading set_reading];
      rewrite andb_false_r; reflexivity.
Qed.





Lemma str_find_ge (x : Ascii.ascii) (t : string) : -1 <= str_find x t.
Proof.
  induction t as [|ch t IH]; cbn; [lia|].
  destruct (Ascii.eqb ch x); [lia|].
  destruct (Z.eqb_spec (str_find x t) (-1)); lia.
Qed.

Lemma str_rfind_ge (x : Ascii.ascii) (t : string) : -1 <= str_rfind x t.
Proof.
  induction t as [|ch t IH]; cbn; [lia|].
  destruct (Z.eqb_spec (str_rfind x t) (-1)); [destruct (Ascii.eqb ch x)|]; lia.
Qed.

Lemma to_nat_succ (z : Z) : 0 <= z -> Z.to_nat (z + 1) = S (Z.to_nat z).
Proof. intros; lia. Qed.

(** The greedy [.*\}] match is the prefix that ends at [rfind("}")]. *)
Lemma longest_close_rfind (t : string) :
  longest_close t =
  if str_rfind "}"%char t =? -1 then None
  else Some (String.substring 0 (Z.to_nat (str_rfind "}"%char t + 1)) t).
Proof.
  induction t as [|ch t IH]; cbn [longest_close str_rfind]; [reflexivity|].
  rewrite IH.
  pose proof (str_rfind_ge "}"%char t) as Hge.
  destruct (Z.eqb_spec (str_rfind "}"%char t) (-1)) as [Hr|Hr].
  - destruct (Ascii.eqb ch "}"%char); [|reflexivity].
    cbn [Z.eqb]. replace (Z.to_nat (0 + 1)) with 1%nat by lia. destruct t; reflexivity.
  - destruct (Z.eqb_spec (str_rfind "}"%char t + 1) (-1)); [lia|].
    rewrite (to_nat_succ (str_rfind "}"%char t + 1)) by lia.
    reflexivity.
Qed.

(** [re.search(r"\{.*\}", text, flags=re.S)] finds exactly
    [text[s:e+1]] with [s = find("{")], [e = rfind("}")], and finds
    nothing unless [s != -1], [e != -1] and [s < e]. *)
Lemma re_search_braces_slice (t : string) :
  re_search_braces t =
  let s := str_find "{"%char t in
  let e := str_rfind "}"%char t in
  if negb (s =? -1) && negb (e =? -1) && (s <? e) then Some (py_slice t s e) else None.
Proof.
  induction t as [|ch t IH]; cbn [re_search_braces]; [reflexivity|].
  pose proof (str_find_ge "{"%char t) as Hs.
  pose proof (str_rfind_ge "}"%char t) as He.
  cbn [str_find str_rfind].
  destruct (Ascii.eqb_spec ch "{"%char) as [->|Hne].
  - rewrite longest_close_rfind. cbn [Ascii.eqb Bool.eqb].
    destruct (Z.eqb_spec (str_rfind "}"%char t) (-1)) as [Hr|Hr].
    + rewrite IH. cbn zeta. rewrite Hr. cbn. rewrite andb_false_r. reflexivity.
    + destruct (Z.eqb_spec (str_rfind "}"%char t + 1) (-1)); [lia|].
      destruct (Z.ltb_spec 0 (str_rfind "}"%char t + 1)); [|lia].
      cbn [negb andb Z.eqb]. unfold py_slice.
      rewrite Z.sub_0_r, (to_nat_succ (str_rfind "}"%char t + 1)) by lia.
      reflexivity.
  - rewrite IH. cbn zeta.
    destruct (Z.eqb_spec (str_find "{"%char t) (-1)) as [Hf|Hf].
    + cbn [negb andb]. reflexivity.
    + destruct (Z.eqb_spec (str_find "{"%char t + 1) (-1)); [lia|].
      destruct (Z.eqb_spec (str_rfind "}"%char t) (-1)) as [Hr|Hr].
      * cbn [negb andb].
        destruct (Ascii.eqb ch "}"%char); cbn [Z.eqb negb andb]; [|reflexivity].
        destruct (Z.ltb_spec (str_find "{"%char t + 1) 0); [lia|].
        reflexivity.
      * destruct (Z.eqb_spec (str_rfind "}"%char t + 1) (-1)); [lia|].
        cbn [negb andb].
        destruct (Z.ltb_spec (str_find "{"%char t) (str_rfind "}"%char t));
          destruct (Z.ltb_spec (str_find "{"%char t + 1) (str_rfind "}"%char t + 1));
          try lia; [|reflexivity].
        unfold py_slice.
        rewrite (to_nat_succ (str_find "{"%char t)) by lia.
        replace (str_rfind "}"%char t + 1 + 1 - (str_find "{"%char t + 1))
          with (str_rfind "}"%char t + 1 - str_find "{"%char t) by lia.
        reflexivity.
Qed.

(** The third stage of [parse_json_safely] (the regex [\{.*\}]) never
    changes the result: its match is the same slice the second stage has
    already tried, and there is none when the second stage was skipped.
    The function is the whole-text parse followed by the
    [text[find("{"):rfind("}")+1]] parse. *)
Theorem parse_json_safely_regex_redundant :
  forall (J : Type) (json_loads : string -> option J) (text : string),
    parse_json_safely json_loads text =
    if String.eqb text "" then None else
    match json_loads text with
    | Some v => Some v
    | None =>
        let s := str_find "{"%char text in
        let e := str_rfind "}"%char text in
        if negb (s =? -1) && negb (e =? -1) && (s <? e)
        then json_loads (py_slice text s e) else None
    end.
Proof.
  intros J json_loads text. unfold parse_json_safely.
  destruct (String.eqb text ""); [reflexivity|].
  destruct (json_loads text); [reflexivity|].
  rewrite re_search_braces_slice. cbn zeta.
  destruct (negb _ && negb _ && _); [|reflexivity].
  destruct (json_loads (py_slice _ _ _)); reflexivity.
Qed.

(** [get_or_create_uid] never hands an empty uid to the page, and after it
    creates one the rerun reads that uid back from the query string. *)
Theorem get_or_create_uid_stable :
  forall (strip : string -> string) (qp_uid : option string) (fresh fresh' : string),
    strip fresh = fresh -> fresh <> "" ->
    (forall u, get_or_create_uid strip qp_uid fresh = UidReturned u -> u <> "") /\
    (forall q, get_or_create_uid strip qp_uid fresh = UidRerun q ->
       q = fresh /\ get_or_create_uid strip (Some q) fresh' = UidReturned fresh).
Proof.
  intros strip qp_uid fresh fresh' Hs Hne. unfold get_or_create_uid.
  split.
  - intros u. destruct (String.eqb_spec (strip (match qp_uid with Some v => v | None => "" end)) "")
      as [_|Hu]; [discriminate|]. intros H. injection H as <-. exact Hu.
  - intros q. destruct (String.eqb_spec (strip (match qp_uid with Some v => v | None => "" end)) "");
      [|discriminate].
    intros H. injection H as <-. split; [reflexivity|].
    rewrite Hs. destruct (String.eqb_spec fresh ""); [contradiction | reflexivity].
Qed.

Lemma get_or_create_uid_stable_witness :
  get_or_create_uid (fun s => s) (Some "") "0123456789abcdef" = UidRerun "0123456789abcdef" /\
  get_or_create_uid (fun s => s) (Some "0123456789abcdef") "fedcba9876543210"
  = UidReturned "0123456789abcdef".
Proof.
  destruct (get_or_create_uid_stable (fun s => s) (Some "") "0123456789abcdef"
              "fedcba9876543210" eq_refl ltac:(discriminate)) as [_ H].
  split; [reflexivity|].
  exact (proj2 (H "0123456789abcdef" eq_refl)).
Defined.

(** A Checkout Session as [create_checkout_session uid] creates it, read
    back by [verify_and_grant_from_session] for a new session id: once paid
    it grants one deep credit to [uid] and records the session, for any
    other caller it is refused as a uid mismatch, and before payment it
    reports the Stripe status, all without touching the ledger except in the
    grant case. *)
Theorem checkout_session_round_trip :
  forall (c : Clock) (db : DB) (uid caller sid : string) (ps st : option string),
    uid <> "" -> sid <> "" -> stripe_session_already_processed db sid = false ->
    (ps = Some "paid" -> caller = uid ->
       verify_and_grant_from_session c db caller sid (Some (created_checkout_session uid ps st))
       = ((true, MsgGranted),
          mark_stripe_session_processed c (add_deep_credits c db uid 1) sid uid)) /\
    (ps = Some "paid" -> caller <> uid ->
       verify_and_grant_from_session c db caller sid (Some (created_checkout_session uid ps st))
       = ((false, MsgUidMismatch), db)) /\
    (ps <> Some "paid" ->
       verify_and_grant_from_session c db caller sid (Some (created_checkout_session uid ps st))
       = ((false, MsgNotPaid st ps), db)).
Proof.
  intros c db uid caller sid ps st Hu Hsid Hnew.
  unfold verify_and_grant_from_session.
  destruct (String.eqb_spec sid ""); [contradiction|]. rewrite Hnew.
  unfold session_owner, py_or, truthy, created_checkout_session. cbn [payment_status status
    client_reference_id metadata_uid].
  assert (Eu : String.eqb uid "" = false) by (apply String.eqb_neq; exact Hu).
  repeat split.
  - intros -> ->. cbn [opt_str_eqb negb andb]. rewrite !String.eqb_refl, Eu.
    cbn [opt_str_eqb negb andb]. rewrite String.eqb_refl, Eu. reflexivity.
  - intros -> Hc. cbn [opt_str_eqb negb andb]. rewrite String.eqb_refl, Eu.
    cbn [opt_str_eqb negb andb]. rewrite ?Eu.
    destruct (String.eqb_spec uid caller); [congruence | reflexivity].
  - intros Hps. destruct ps as [p|]; cbn [opt_str_eqb negb]; [|reflexivity].
    destruct (String.eqb_spec p "paid"); [congruence | reflexivity].
Qed.

Lemma checkout_session_round_trip_witness :
  verify_and_grant_from_session (mkClock "d" "t") db_empty "v" "cs_1"
    (Some (created_checkout_session "u" (Some "paid") (Some "complete")))
  = ((false, MsgUidMismatch), db_empty).
Proof.
  destruct (checkout_session_round_trip (mkClock "d" "t") db_empty "u" "v" "cs_1"
              (Some "paid") (Some "complete")) as (_ & H & _).
  - discriminate.
  - discriminate.
  - reflexivity.
  - exact (H eq_refl ltac:(discriminate)).
Defined.
